(** * Task.py: the EWMA Z-score anomaly detector

    A shallow embedding of [ZScoreEWMA_AnomalyDetector], of the loop that
    drives it, of the generator of the data stream and of the main program,
    with the properties its specification states and further ones read off
    the code.

    Numbers.  The detector computes on Python numbers.  Two embeddings of
    it are given.  The first takes them as exact real numbers, [R] with
    [Rabs], [/] and [^]: it serves where the algebra of the updates decides
    (which mean the deviation is taken from, the sign of the variance, the
    role of the threshold) and knows no rounding, no overflow and no
    infinite value; the one NaN the code can make from real numbers,
    [np.sqrt] of a negative variance, is kept: [np_sqrt] returns [None]
    there, and a comparison with it is [False].  The second, [B64], takes
    them as binary64 floats with the operations of IEEE 754, as Python
    computes on [float] arguments: it serves where rounding or overflow
    decides.

    Objects.  A detector is a record of its four attributes; [None] is
    Python's [None].  A method takes the object and returns its result with
    the object as the call leaves it.  A call either returns a value or
    raises; on a raise the object keeps what was assigned before. *)

From Stdlib Require Import Floats.
From Stdlib Require Import Reals Lra List ZArith Lia Bool.
Import ListNotations.

Open Scope R_scope.

(** ** Python results *)

Inductive exn : Type :=
| TypeError
| ValueError
| OverflowError.

Inductive result (A : Type) : Type :=
| Ok (a : A)
| Raise (e : exn).

Arguments Ok {A} a.
Arguments Raise {A} e.

(** A call returned, rather than raised. *)
Definition returned {A : Type} (r : result A) : bool :=
  match r with
  | Ok _ => true
  | Raise _ => false
  end.

(** ** The detector *)

Record ZScoreEWMA_AnomalyDetector : Type := {
  alpha : R;
  mean_ewma : option R;
  variance_ewma : option R;
  threshold : R
}.

(** [ZScoreEWMA_AnomalyDetector(alpha, threshold)]: four assignments, no
    test of the arguments, no [raise]. *)
Definition __init__ (alpha threshold : R)
  : result ZScoreEWMA_AnomalyDetector :=
  Ok {| alpha := alpha;
        mean_ewma := None;
        variance_ewma := None;
        threshold := threshold |}.

(** The object a successful construction yields. *)
Definition fresh (a t : R) : ZScoreEWMA_AnomalyDetector :=
  {| alpha := a; mean_ewma := None; variance_ewma := None; threshold := t |}.

(** Attribute assignments [self.mean_ewma = m], [self.variance_ewma = s]. *)
Definition set_mean_ewma (self : ZScoreEWMA_AnomalyDetector) (m : R) :=
  {| alpha := alpha self;
     mean_ewma := Some m;
     variance_ewma := variance_ewma self;
     threshold := threshold self |}.

Definition set_variance_ewma (self : ZScoreEWMA_AnomalyDetector) (s : R) :=
  {| alpha := alpha self;
     mean_ewma := mean_ewma self;
     variance_ewma := Some s;
     threshold := threshold self |}.

(** The constant added to the standard deviation in the Z-score. *)
Definition epsilon : R := 1e-6.

(** [a > b] as a Python boolean. *)
Definition gtb (a b : R) : bool := if Rgt_dec a b then true else false.

(** [np.sqrt(x)]: the square root of a number that is not negative; of a
    negative one numpy returns nan (with a warning, not an exception),
    here [None]. *)
Definition np_sqrt (x : R) : option R :=
  if Rle_dec 0 x then Some (sqrt x) else None.

(** [detect(self, value)].

    The first call stores the value as the mean and 0 as the variance and
    returns [False].  Every later call assigns the mean first, then takes
    the deviation of the value from [self.mean_ewma], which by then holds
    the new mean [mean']; the variance, its square root and the Z-score
    follow.  [(1 - self.alpha) * self.variance_ewma] with a variance that
    is still [None] is a [TypeError], raised after the mean was assigned.
    A nan standard deviation makes the Z-score nan, and [nan > threshold]
    is [False]. *)
Definition detect (self : ZScoreEWMA_AnomalyDetector) (value : R)
  : result bool * ZScoreEWMA_AnomalyDetector :=
  match mean_ewma self with
  | None =>
      let self := set_mean_ewma self value in
      let self := set_variance_ewma self 0 in
      (Ok false, self)
  | Some mean =>
      let mean' := alpha self * value + (1 - alpha self) * mean in
      let self := set_mean_ewma self mean' in
      let deviation := value - mean' in
      match variance_ewma self with
      | None => (Raise TypeError, self)
      | Some variance =>
          let variance' :=
            alpha self * deviation ^ 2 + (1 - alpha self) * variance in
          let self := set_variance_ewma self variance' in
          let std := np_sqrt variance' in
          let z_score :=
            match std with
            | Some std => Some (Rabs deviation / (std + epsilon))
            | None => None
            end in
          (Ok match z_score with
              | Some z_score => gtb z_score (threshold self)
              | None => false
              end, self)
      end
  end.

(** ** Driving the detector *)

(** Calling [detect] on each value of a finite stream in turn, collecting
    the flags; an exception ends the run. *)
Fixpoint detect_each (self : ZScoreEWMA_AnomalyDetector) (values : list R)
  : result (list bool) * ZScoreEWMA_AnomalyDetector :=
  match values with
  | [] => (Ok [], self)
  | value :: rest =>
      match detect self value with
      | (Ok flag, self') =>
          match detect_each self' rest with
          | (Ok flags, self'') => (Ok (flag :: flags), self'')
          | (Raise e, self'') => (Raise e, self'')
          end
      | (Raise e, self') => (Raise e, self')
      end
  end.

(** The body of the [for value in stream] loop of [real_time_visualization],
    without the plotting: [data_points] grows by the value, and the index of
    the value joins [anomalies] when [detect] flags it. *)
Fixpoint visualization_loop (stream : list R)
    (anomaly_detector : ZScoreEWMA_AnomalyDetector)
    (data_points : list R) (anomalies : list nat)
  : result (list R * list nat) * ZScoreEWMA_AnomalyDetector :=
  match stream with
  | [] => (Ok (data_points, anomalies), anomaly_detector)
  | value :: rest =>
      let data_points := data_points ++ [value] in
      match detect anomaly_detector value with
      | (Ok true, anomaly_detector') =>
          visualization_loop rest anomaly_detector' data_points
            (anomalies ++ [(length data_points - 1)%nat])
      | (Ok false, anomaly_detector') =>
          visualization_loop rest anomaly_detector' data_points anomalies
      | (Raise e, anomaly_detector') => (Raise e, anomaly_detector')
      end
  end.

Definition real_time_visualization (stream : list R)
    (anomaly_detector : ZScoreEWMA_AnomalyDetector) :=
  visualization_loop stream anomaly_detector [] [].

(** ** Predicates on detectors *)

(** Both statistics are unset, or both are set. *)
Definition statistics_paired (self : ZScoreEWMA_AnomalyDetector) : Prop :=
  match mean_ewma self, variance_ewma self with
  | None, None => True
  | Some _, Some _ => True
  | _, _ => False
  end.

(** The variance, where set, is not negative. *)
Definition variance_nonneg (self : ZScoreEWMA_AnomalyDetector) : Prop :=
  match variance_ewma self with
  | Some variance => 0 <= variance
  | None => True
  end.

(** The same detector with another threshold. *)
Definition with_threshold (t : R) (self : ZScoreEWMA_AnomalyDetector) :=
  {| alpha := alpha self;
     mean_ewma := mean_ewma self;
     variance_ewma := variance_ewma self;
     threshold := t |}.

(** An index is among the anomalies a run of the loop collected. *)
Definition flagged (i : nat)
    (run : result (list R * list nat) * ZScoreEWMA_AnomalyDetector) : Prop :=
  match fst run with
  | Ok (_, anomalies) => In i anomalies
  | Raise _ => False
  end.

(** ** The algorithm in the specification's words

    Step 2 of the specification's algorithm takes the deviation from the
    mean estimate before the estimate is updated, and uses that deviation
    for the variance and the Z-score.  [detect_deviation_first] is that
    reading, for comparison with [detect]. *)
Definition detect_deviation_first (self : ZScoreEWMA_AnomalyDetector)
    (value : R) : result bool * ZScoreEWMA_AnomalyDetector :=
  match mean_ewma self with
  | None =>
      (Ok false, set_variance_ewma (set_mean_ewma self value) 0)
  | Some mean =>
      let deviation := value - mean in
      let self := set_mean_ewma self
                    (alpha self * value + (1 - alpha self) * mean) in
      match variance_ewma self with
      | None => (Raise TypeError, self)
      | Some variance =>
          let variance' :=
            alpha self * deviation ^ 2 + (1 - alpha self) * variance in
          let self := set_variance_ewma self variance' in
          let z_score :=
            match np_sqrt variance' with
            | Some std => Some (Rabs deviation / (std + epsilon))
            | None => None
            end in
          (Ok match z_score with
              | Some z_score => gtb z_score (threshold self)
              | None => false
              end, self)
      end
  end.

(** ** The flag of a call, as a function of what the call computed

    [z_test deviation variance t] is the boolean a later call returns when
    it has computed [deviation] and stored [variance] under threshold [t]. *)
Definition z_test (deviation variance t : R) : bool :=
  match np_sqrt variance with
  | Some std => gtb (Rabs deviation / (std + epsilon)) t
  | None => false
  end.

(** ** Bookkeeping of the loop *)

(** The positions of the [true] flags of a run, counted from [offset]. *)
Fixpoint true_indices (offset : nat) (flags : list bool) : list nat :=
  match flags with
  | [] => []
  | true :: rest => offset :: true_indices (S offset) rest
  | false :: rest => true_indices (S offset) rest
  end.

(** A list of indices that grows strictly and stays below [bound]. *)
Fixpoint increasing_below (bound : nat) (from : nat) (l : list nat) : Prop :=
  match l with
  | [] => True
  | i :: rest =>
      (from <= i)%nat /\ (i < bound)%nat /\ increasing_below bound (S i) rest
  end.

(** ** The sliding window

    [window = deque(maxlen=window_size)] and [window.append(value)].  The
    [maxlen] is converted to a C [ssize_t], an [OverflowError] outside
    [-2^63 .. 2^63 - 1]; a negative one is a [ValueError]; [append] adds
    the item on the right and, when that makes the deque longer than
    [maxlen], drops the leftmost one. *)
Definition ssize_t_max : Z := 2 ^ 63 - 1.

Definition deque (maxlen : Z) : result (list R) :=
  if ((maxlen <? - 2 ^ 63) || (ssize_t_max <? maxlen))%Z
  then Raise OverflowError
  else if (maxlen <? 0)%Z then Raise ValueError else Ok [].

Definition deque_append (maxlen : Z) (window : list R) (value : R) : list R :=
  let window := window ++ [value] in
  if (maxlen <? Z.of_nat (length window))%Z then tl window else window.

(** The loop of [real_time_visualization] with its window. *)
Fixpoint windowed_loop (window_size : Z) (stream : list R)
    (anomaly_detector : ZScoreEWMA_AnomalyDetector)
    (window data_points : list R) (anomalies : list nat)
  : result (list R * list R * list nat) * ZScoreEWMA_AnomalyDetector :=
  match stream with
  | [] => (Ok (window, data_points, anomalies), anomaly_detector)
  | value :: rest =>
      let window := deque_append window_size window value in
      let data_points := data_points ++ [value] in
      match detect anomaly_detector value with
      | (Ok true, anomaly_detector') =>
          windowed_loop window_size rest anomaly_detector' window data_points
            (anomalies ++ [(length data_points - 1)%nat])
      | (Ok false, anomaly_detector') =>
          windowed_loop window_size rest anomaly_detector' window data_points
            anomalies
      | (Raise e, anomaly_detector') => (Raise e, anomaly_detector')
      end
  end.

(** [real_time_visualization(stream, anomaly_detector, window_size)]: the
    window is made first, then the loop runs; the plot is left out. *)
Definition real_time_visualization_sized (stream : list R)
    (anomaly_detector : ZScoreEWMA_AnomalyDetector) (window_size : Z) :=
  match deque window_size with
  | Raise e => (Raise e, anomaly_detector)
  | Ok window =>
      windowed_loop window_size stream anomaly_detector window [] []
  end.

(** ** Random numbers

    What the program takes from [np.random]: a state, a standard normal
    draw, a uniform draw and the draw of an index below a bound.  The
    program's results are stated for every such generator. *)
Class Random : Type := {
  rng : Type;
  standard_normal : rng -> R * rng;
  random_sample : rng -> R * rng;
  random_index : nat -> rng -> nat * rng
}.

(** [rand()] lies in [0,1), and an index drawn below a positive bound is
    below it. *)
Definition well_behaved (G : Random) : Prop :=
  (forall g, 0 <= fst (random_sample g) < 1)
  /\ (forall n g, (0 < n)%nat -> (fst (random_index n g) < n)%nat).

(** A generator whose every draw is the same: normal [z], uniform [u],
    index [i] (taken below the bound). *)
Definition constant_random (z u : R) (i : nat) : Random :=
  {| rng := unit;
     standard_normal := fun g => (z, g);
     random_sample := fun g => (u, g);
     random_index := fun n g => ((i mod n)%nat, g) |}.

Section Generator.

Context {G : Random}.

(** [np.random.normal(loc, scale)]: a negative [scale] is a [ValueError];
    otherwise [loc + scale * z] for a standard normal [z]. *)
Definition normal (loc scale : R) (g : rng) : result R * rng :=
  if Rlt_dec scale 0 then (Raise ValueError, g)
  else let (z, g) := standard_normal g in (Ok (loc + scale * z), g).

(** [np.random.rand()]. *)
Definition rand (g : rng) : R * rng := random_sample g.

(** [np.random.choice(a)] for a list [a]: an empty list is a
    [ValueError]; otherwise the item at a drawn index. *)
Definition choice (a : list R) (g : rng) : result R * rng :=
  match a with
  | [] => (Raise ValueError, g)
  | _ :: _ =>
      let (i, g) := random_index (length a) g in (Ok (nth i a 0), g)
  end.

(** One turn of the [for i in range(length)] loop of
    [generate_data_stream]: the value it yields. *)
Definition generate_value (i : nat) (anomaly_prob noise_level : R) (g : rng)
  : result R * rng :=
  let regular_value := sin (INR i * 2 * PI / 100) in
  match normal 0 noise_level g with
  | (Raise e, g) => (Raise e, g)
  | (Ok noise, g) =>
      let noisy_value := regular_value + noise in
      let (u, g) := rand g in
      if Rlt_dec u anomaly_prob then
        match choice [10; -10] g with
        | (Raise e, g) => (Raise e, g)
        | (Ok anomaly, g) => (Ok (noisy_value + anomaly), g)
        end
      else (Ok noisy_value, g)
  end.

(** The turns [i], [i+1], ... ([count] of them): the values yielded, and
    how the generator ended, exhausted or by an exception. *)
Fixpoint generate_from (i count : nat) (anomaly_prob noise_level : R)
    (g : rng) : (list R * result unit) * rng :=
  match count with
  | O => (([], Ok tt), g)
  | S count' =>
      match generate_value i anomaly_prob noise_level g with
      | (Raise e, g) => (([], Raise e), g)
      | (Ok value, g) =>
          let '((rest, ending), g) :=
            generate_from (S i) count' anomaly_prob noise_level g in
          ((value :: rest, ending), g)
      end
  end.

(** [generate_data_stream(length, anomaly_prob, noise_level)], run to its
    end; [range(length)] is empty for a negative [length].  The pause
    between values is left out. *)
Definition generate_data_stream (length : Z) (anomaly_prob noise_level : R)
    (g : rng) : (list R * result unit) * rng :=
  generate_from 0 (Z.to_nat length) anomaly_prob noise_level g.

(** The main program: the detector with smoothing factor 0.3 and threshold
    3, the stream with its defaults (1000 values, anomaly probability 0.05,
    noise level 0.1), the loop with its default window of 30.  The loop
    takes the values as the generator yields them; an exception of the
    generator ends the program after the values before it. *)
Definition main (g : rng)
  : result (list R * list R * list nat) * ZScoreEWMA_AnomalyDetector :=
  match __init__ 0.3 3 with
  | Raise e => (Raise e, fresh 0.3 3)
  | Ok anomaly_detector =>
      let '((stream, ending), _) := generate_data_stream 1000 0.05 0.1 g in
      match real_time_visualization_sized stream anomaly_detector 30 with
      | (Raise e, anomaly_detector) => (Raise e, anomaly_detector)
      | (Ok shown, anomaly_detector) =>
          match ending with
          | Ok _ => (Ok shown, anomaly_detector)
          | Raise e => (Raise e, anomaly_detector)
          end
      end
  end.

End Generator.

(** The state of the random generator after the [count] turns [first],
    [first + 1], ... of the stream, started in state [g]; with [first] 0
    it is the state before turn [count]. *)
Fixpoint rng_after_turns {G : Random} (first count : nat)
    (anomaly_prob noise_level : R) (g : rng) : rng :=
  match count with
  | O => g
  | S count' =>
      rng_after_turns (S first) count' anomaly_prob noise_level
        (snd (generate_value first anomaly_prob noise_level g))
  end.

(** What turn [i] computes before it decides on an anomaly:
    [regular_value + np.random.normal(0, noise_level)], with the normal
    draw of the state the turn starts in. *)
Definition noisy_value_at {G : Random} (i : nat) (noise_level : R) (g : rng)
  : R :=
  sin (INR i * 2 * PI / 100) + (0 + noise_level * fst (standard_normal g)).

(** * The detector on binary64

    The same class on Python [float] arguments: every operation rounds as
    IEEE 754 binary64 does, and [deviation ** 2] raises [OverflowError]
    when the square of a finite deviation is not finite.  The square is
    taken as the correctly rounded product.  [np.sqrt] of a negative
    number is nan, a division by zero is an infinity or nan, and a
    comparison with nan is [False]; none of them raises. *)
Module B64.

Local Open Scope float_scope.

Record ZScoreEWMA_AnomalyDetector : Type := {
  alpha : float;
  mean_ewma : option float;
  variance_ewma : option float;
  threshold : float
}.

Definition __init__ (alpha threshold : float)
  : result ZScoreEWMA_AnomalyDetector :=
  Ok {| alpha := alpha;
        mean_ewma := None;
        variance_ewma := None;
        threshold := threshold |}.

Definition set_mean_ewma (self : ZScoreEWMA_AnomalyDetector) (m : float) :=
  {| alpha := alpha self;
     mean_ewma := Some m;
     variance_ewma := variance_ewma self;
     threshold := threshold self |}.

Definition set_variance_ewma (self : ZScoreEWMA_AnomalyDetector) (s : float) :=
  {| alpha := alpha self;
     mean_ewma := mean_ewma self;
     variance_ewma := Some s;
     threshold := threshold self |}.

(** The literal [1e-6]: the binary64 number nearest to it. *)
Definition epsilon : float := 0x1.0c6f7a0b5ed8dp-20.

(** The square of a finite number is not finite. *)
Definition square_overflows (x : float) : bool :=
  is_finite x && is_infinity (x * x).

(** [x ** 2] on a Python [float]. *)
Definition pow2 (x : float) : result float :=
  if square_overflows x then Raise OverflowError else Ok (x * x).

(** [detect(self, value)].  In
    [self.alpha * (deviation ** 2) + (1 - self.alpha) * self.variance_ewma]
    the square is evaluated before the variance is read. *)
Definition detect (self : ZScoreEWMA_AnomalyDetector) (value : float)
  : result bool * ZScoreEWMA_AnomalyDetector :=
  match mean_ewma self with
  | None =>
      let self := set_mean_ewma self value in
      let self := set_variance_ewma self 0 in
      (Ok false, self)
  | Some mean =>
      let mean' := alpha self * value + (1 - alpha self) * mean in
      let self := set_mean_ewma self mean' in
      let deviation := value - mean' in
      match pow2 deviation with
      | Raise e => (Raise e, self)
      | Ok squared =>
          match variance_ewma self with
          | None => (Raise TypeError, self)
          | Some variance =>
              let variance' :=
                alpha self * squared + (1 - alpha self) * variance in
              let self := set_variance_ewma self variance' in
              let std := PrimFloat.sqrt variance' in
              let z_score := abs deviation / (std + epsilon) in
              (Ok (threshold self <? z_score), self)
          end
      end
  end.

(** Calling [detect] on each value in turn; an exception ends the run. *)
Fixpoint detect_each (self : ZScoreEWMA_AnomalyDetector) (values : list float)
  : result (list bool) * ZScoreEWMA_AnomalyDetector :=
  match values with
  | [] => (Ok [], self)
  | value :: rest =>
      match detect self value with
      | (Ok flag, self') =>
          match detect_each self' rest with
          | (Ok flags, self'') => (Ok (flag :: flags), self'')
          | (Raise e, self'') => (Raise e, self'')
          end
      | (Raise e, self') => (Raise e, self')
      end
  end.


(** Both statistics are unset, or both are set. *)
Definition statistics_paired (self : ZScoreEWMA_AnomalyDetector) : Prop :=
  match mean_ewma self, variance_ewma self with
  | None, None => True
  | Some _, Some _ => True
  | _, _ => False
  end.

(** ** Several detectors in one program

    The objects of a program live in one heap, named by their identities;
    a method reads and assigns attributes of the object it is called on
    through the heap.  [detect_at] is [detect] written that way: every
    [self.x] is a read of the heap at [self], every [self.x = e] an
    update of the heap at [self]. *)
Definition heap : Type := nat -> ZScoreEWMA_AnomalyDetector.

Definition getattr {A : Type} (h : heap) (self : nat)
    (field : ZScoreEWMA_AnomalyDetector -> A) : A :=
  field (h self).

Definition setattr (h : heap) (self : nat)
    (assign : ZScoreEWMA_AnomalyDetector -> ZScoreEWMA_AnomalyDetector)
  : heap :=
  fun o => if Nat.eqb o self then assign (h o) else h o.

Definition detect_at (h : heap) (self : nat) (value : float)
  : result bool * heap :=
  match getattr h self mean_ewma with
  | None =>
      let h := setattr h self (fun d => set_mean_ewma d value) in
      let h := setattr h self (fun d => set_variance_ewma d 0) in
      (Ok false, h)
  | Some mean =>
      let h :=
        setattr h self
          (fun d =>
             set_mean_ewma d
               (getattr h self alpha * value
                + (1 - getattr h self alpha) * mean)) in
      match getattr h self mean_ewma with
      | None => (Raise TypeError, h)
      | Some mean' =>
          let deviation := value - mean' in
          match pow2 deviation with
          | Raise e => (Raise e, h)
          | Ok squared =>
              match getattr h self variance_ewma with
              | None => (Raise TypeError, h)
              | Some variance =>
                  let h :=
                    setattr h self
                      (fun d =>
                         set_variance_ewma d
                           (getattr h self alpha * squared
                            + (1 - getattr h self alpha) * variance)) in
                  match getattr h self variance_ewma with
                  | None => (Raise TypeError, h)
                  | Some variance' =>
                      let std := PrimFloat.sqrt variance' in
                      let z_score := abs deviation / (std + epsilon) in
                      (Ok (getattr h self threshold <? z_score), h)
                  end
              end
          end
      end
  end.

(** A program's [detect] calls in the order it makes them, each on some
    object with some value; the outcome of each call is logged, and the
    program goes on after a call that raised (it caught the exception). *)
Fixpoint run (h : heap) (calls : list (nat * float))
  : list (nat * result bool) * heap :=
  match calls with
  | [] => ([], h)
  | (self, value) :: rest =>
      let (outcome, h) := detect_at h self value in
      let (log, h) := run h rest in
      ((self, outcome) :: log, h)
  end.

(** The values one object is called with, and the outcomes of its calls. *)
Definition values_of (o : nat) (calls : list (nat * float)) : list float :=
  map snd (filter (fun c => Nat.eqb (fst c) o) calls).

Definition outcomes_of (o : nat) (log : list (nat * result bool))
  : list (result bool) :=
  map snd (filter (fun c => Nat.eqb (fst c) o) log).

(** One detector called with each value in turn, the outcome of each call
    logged, going on after a call that raised. *)
Fixpoint trace (self : ZScoreEWMA_AnomalyDetector) (values : list float)
  : list (result bool) * ZScoreEWMA_AnomalyDetector :=
  match values with
  | [] => ([], self)
  | value :: rest =>
      let (outcome, self) := detect self value in
      let (log, self) := trace self rest in
      (outcome :: log, self)
  end.

End B64.

(** * Properties *)

(** ** Comparisons and the square root *)

Lemma gtb_true (a b : R) : gtb a b = true <-> a > b.
Proof.
  unfold gtb. destruct (Rgt_dec a b) as [H|H]; split; intros H';
    first [assumption | reflexivity | discriminate | contradiction].
Qed.

Lemma gtb_false (a b : R) : gtb a b = false <-> a <= b.
Proof.
  unfold gtb. destruct (Rgt_dec a b) as [H|H]; split; intros H';
    first [reflexivity | discriminate | lra].
Qed.

Lemma np_sqrt_nonneg (x : R) : 0 <= x -> np_sqrt x = Some (sqrt x).
Proof.
  intros H. unfold np_sqrt. destruct (Rle_dec 0 x); [reflexivity|contradiction].
Qed.

Lemma np_sqrt_negative (x : R) : x < 0 -> np_sqrt x = None.
Proof.
  intros H. unfold np_sqrt. destruct (Rle_dec 0 x); [lra|reflexivity].
Qed.

Lemma np_sqrt_some (x std : R) :
  np_sqrt x = Some std -> 0 <= x /\ std = sqrt x.
Proof.
  unfold np_sqrt. destruct (Rle_dec 0 x) as [H|H]; [|discriminate].
  intros E. injection E as <-. split; [exact H|reflexivity].
Qed.

Lemma epsilon_pos : 0 < epsilon.
Proof. unfold epsilon. lra. Qed.

(** The divisor of the Z-score is positive. *)
Lemma divisor_pos (variance : R) : 0 < sqrt variance + epsilon.
Proof. pose proof (sqrt_pos variance). pose proof epsilon_pos. lra. Qed.

Lemma div_le_iff (x d t : R) : 0 < d -> (x / d <= t <-> x <= t * d).
Proof.
  intros Hd.
  assert (He : x / d * d = x) by (unfold Rdiv; field; lra).
  split; intros H.
  - rewrite <- He. apply Rmult_le_compat_r; lra.
  - apply (Rmult_le_reg_r d); [exact Hd|]. rewrite He. exact H.
Qed.

(** ** The Z-score test *)

(** With a variance that is not negative the flag is [False] exactly when
    the deviation stays within [threshold] divisors. *)
Lemma z_test_false (deviation variance t : R) :
  0 <= variance ->
  (z_test deviation variance t = false
   <-> Rabs deviation <= t * (sqrt variance + epsilon)).
Proof.
  intros Hv. unfold z_test. rewrite (np_sqrt_nonneg variance Hv).
  rewrite gtb_false. apply div_le_iff. apply divisor_pos.
Qed.

Lemma z_test_true (deviation variance t : R) :
  0 <= variance ->
  (z_test deviation variance t = true
   <-> t * (sqrt variance + epsilon) < Rabs deviation).
Proof.
  intros Hv. pose proof (z_test_false deviation variance t Hv) as Hf.
  destruct (z_test deviation variance t).
  - split; [intros _|reflexivity].
    apply Rnot_le_lt. intros H. apply Hf in H. discriminate H.
  - split; [discriminate|]. intros H.
    assert (Hle : Rabs deviation <= t * (sqrt variance + epsilon))
      by (apply Hf; reflexivity).
    lra.
Qed.

(** With a negative variance the Z-score is nan and the flag [False]. *)
Lemma z_test_nan (deviation variance t : R) :
  variance < 0 -> z_test deviation variance t = false.
Proof.
  intros Hv. unfold z_test. rewrite (np_sqrt_negative variance Hv).
  reflexivity.
Qed.

(** A flag raised under a threshold is raised under every smaller one. *)
Lemma z_test_monotone (deviation variance tA tB : R) :
  tA < tB ->
  z_test deviation variance tB = true ->
  z_test deviation variance tA = true.
Proof.
  intros Hlt. unfold z_test.
  destruct (np_sqrt variance) as [std|]; [|discriminate].
  rewrite !gtb_true. lra.
Qed.

(** ** Equations of [__init__] and [detect] *)

Lemma init_fresh (a t : R) : __init__ a t = Ok (fresh a t).
Proof. reflexivity. Qed.

Lemma init_inv (a t : R) (self : ZScoreEWMA_AnomalyDetector) :
  __init__ a t = Ok self -> self = fresh a t.
Proof. unfold __init__, fresh. intros H. injection H as <-. reflexivity. Qed.

Lemma detect_first (self : ZScoreEWMA_AnomalyDetector) (value : R) :
  mean_ewma self = None ->
  detect self value =
    (Ok false,
     {| alpha := alpha self; mean_ewma := Some value;
        variance_ewma := Some 0; threshold := threshold self |}).
Proof. intros H. unfold detect. rewrite H. reflexivity. Qed.

Lemma detect_later
    (self : ZScoreEWMA_AnomalyDetector) (value mean variance : R) :
  mean_ewma self = Some mean ->
  variance_ewma self = Some variance ->
  let mean' := alpha self * value + (1 - alpha self) * mean in
  let variance' :=
    alpha self * (value - mean') ^ 2 + (1 - alpha self) * variance in
  detect self value =
    (Ok (z_test (value - mean') variance' (threshold self)),
     {| alpha := alpha self; mean_ewma := Some mean';
        variance_ewma := Some variance'; threshold := threshold self |}).
Proof.
  intros Hm Hv. unfold detect, z_test. rewrite Hm. cbn. rewrite Hv. cbn.
  destruct (np_sqrt _); reflexivity.
Qed.

(** A later call, with the values it stores and the flag it returns named. *)
Lemma detect_later_eq (self : ZScoreEWMA_AnomalyDetector)
    (value mean variance mean' variance' : R) (flag : bool) :
  mean_ewma self = Some mean ->
  variance_ewma self = Some variance ->
  mean' = alpha self * value + (1 - alpha self) * mean ->
  variance' = alpha self * (value - mean') ^ 2 + (1 - alpha self) * variance ->
  z_test (value - mean') variance' (threshold self) = flag ->
  detect self value =
    (Ok flag,
     {| alpha := alpha self; mean_ewma := Some mean';
        variance_ewma := Some variance'; threshold := threshold self |}).
Proof.
  intros Hm Hv -> -> <-. apply detect_later; assumption.
Qed.

Lemma detect_unpaired (self : ZScoreEWMA_AnomalyDetector) (value mean : R) :
  mean_ewma self = Some mean ->
  variance_ewma self = None ->
  fst (detect self value) = Raise TypeError.
Proof.
  intros Hm Hv. unfold detect. rewrite Hm. cbn. rewrite Hv. reflexivity.
Qed.

(** [detect] assigns neither [alpha] nor [threshold]. *)
Lemma detect_parameters (self : ZScoreEWMA_AnomalyDetector) (value : R) :
  alpha (snd (detect self value)) = alpha self
  /\ threshold (snd (detect self value)) = threshold self.
Proof.
  unfold detect.
  destruct (mean_ewma self) as [mean|]; cbn; [|split; reflexivity].
  destruct (variance_ewma self) as [variance|]; cbn; split; reflexivity.
Qed.

Lemma detect_each_cons (self self' self'' : ZScoreEWMA_AnomalyDetector)
    (value : R) (rest : list R) (flag : bool) (flags : list bool) :
  detect self value = (Ok flag, self') ->
  detect_each self' rest = (Ok flags, self'') ->
  detect_each self (value :: rest) = (Ok (flag :: flags), self'').
Proof. intros H1 H2. cbn [detect_each]. rewrite H1, H2. reflexivity. Qed.

(** Running one later call on a detector written out: the stored values and
    the flag are given, the arithmetic is left to [lra]. *)
Ltac later_call self value mean variance mean' variance' flag :=
  apply (detect_later_eq self value mean variance mean' variance' flag);
  cbn [alpha threshold mean_ewma variance_ewma];
  try reflexivity; try lra.

(** ** Cold start *)

(** C4. Whatever the parameters and the first value [v], the first [detect]
    call on a freshly constructed detector returns [False] and leaves the
    mean estimate equal to [v] and the variance estimate equal to 0. *)
Theorem cold_start (a t v : R) :
  exists self,
    __init__ a t = Ok self
    /\ fst (detect self v) = Ok false
    /\ mean_ewma (snd (detect self v)) = Some v
    /\ variance_ewma (snd (detect self v)) = Some 0.
Proof.
  exists (fresh a t). rewrite init_fresh, detect_first by reflexivity.
  cbn. auto.
Qed.

(** ** Which mean the deviation is taken from *)

(** C1, as the code has it. On a detector that holds a mean and a variance,
    [detect] takes the deviation of the value from the refreshed mean, the
    one the call itself has just stored.  With [mean'] and [variance'] the
    estimates the call leaves behind, [variance'] is
    [alpha * (value - mean')^2 + (1 - alpha) * variance], and the flag
    compares [|value - mean'| / (sqrt variance' + epsilon)] with the
    threshold (and is [False] should [variance'] be negative). *)
Theorem deviation_from_refreshed_mean
    (self : ZScoreEWMA_AnomalyDetector) (value mean variance : R) :
  mean_ewma self = Some mean ->
  variance_ewma self = Some variance ->
  exists mean' variance',
    mean_ewma (snd (detect self value)) = Some mean'
    /\ mean' = alpha self * value + (1 - alpha self) * mean
    /\ variance_ewma (snd (detect self value)) = Some variance'
    /\ variance' =
         alpha self * (value - mean') ^ 2 + (1 - alpha self) * variance
    /\ (0 <= variance' ->
        fst (detect self value) =
          Ok (gtb (Rabs (value - mean') / (sqrt variance' + epsilon))
                 (threshold self)))
    /\ (variance' < 0 -> fst (detect self value) = Ok false).
Proof.
  intros Hm Hv. rewrite (detect_later self value mean variance Hm Hv). cbn.
  eexists. eexists.
  split; [reflexivity|]. split; [reflexivity|].
  split; [reflexivity|]. split; [reflexivity|].
  split; intros H; f_equal.
  - unfold z_test. rewrite np_sqrt_nonneg by exact H. reflexivity.
  - apply z_test_nan. exact H.
Qed.

Lemma deviation_from_refreshed_mean_witness :
  exists mean' variance',
    mean_ewma (snd (detect (snd (detect (fresh (1/2) 3) 0)) 2)) = Some mean'
    /\ mean' = 1/2 * 2 + (1 - 1/2) * 0
    /\ variance_ewma (snd (detect (snd (detect (fresh (1/2) 3) 0)) 2))
       = Some variance'
    /\ variance' = 1/2 * (2 - mean') ^ 2 + (1 - 1/2) * 0
    /\ (0 <= variance' ->
        fst (detect (snd (detect (fresh (1/2) 3) 0)) 2) =
          Ok (gtb (Rabs (2 - mean') / (sqrt variance' + epsilon)) 3))
    /\ (variance' < 0 ->
        fst (detect (snd (detect (fresh (1/2) 3) 0)) 2) = Ok false).
Proof.
  apply (deviation_from_refreshed_mean
           (snd (detect (fresh (1/2) 3) 0)) 2 0 0); reflexivity.
Defined.

(** C1, as the specification words it, fails. A detector with smoothing
    factor 1/2 that has seen 0 holds mean 0 and variance 0. On the value 2
    the deviation from the previous mean is 2 and would give the variance
    [1/2 * 2^2 = 2]; [detect] stores 1/2, the square of the deviation 1 from
    the refreshed mean 1, weighted by 1/2. *)
Lemma deviation_not_from_previous_mean :
  variance_ewma (snd (detect (snd (detect (fresh (1/2) 3) 0)) 2))
    = Some (1/2)
  /\ variance_ewma
       (snd (detect_deviation_first (snd (detect (fresh (1/2) 3) 0)) 2))
     = Some 2
  /\ variance_ewma (snd (detect (snd (detect (fresh (1/2) 3) 0)) 2))
     <> Some (1/2 * (2 - 0) ^ 2 + (1 - 1/2) * 0).
Proof.
  cbn. repeat split.
  - f_equal. lra.
  - f_equal. lra.
  - intros H. injection H as H. lra.
Qed.

(** ** Construction *)

(** C3, as the code has it. Construction never raises: for every smoothing
    factor and every threshold it returns a detector that holds the two
    unchanged and has neither statistic set; and that detector is usable:
    its first [detect] call, on any value, returns [False] and stores the
    value as the mean and 0 as the variance. *)
Theorem init_accepts_everything (a t v : R) :
  exists self,
    __init__ a t = Ok self
    /\ alpha self = a
    /\ threshold self = t
    /\ mean_ewma self = None
    /\ variance_ewma self = None
    /\ detect self v =
         (Ok false,
          {| alpha := a; mean_ewma := Some v; variance_ewma := Some 0;
             threshold := t |}).
Proof.
  exists (fresh a t). rewrite init_fresh.
  rewrite (detect_first (fresh a t) v) by reflexivity.
  repeat split.
Qed.

(** C3, as stated, fails. The smoothing factor 2 is outside (0,1) and the
    threshold -1 is not positive; construction returns a detector, no
    exception, and the detector takes [detect] calls. *)
Lemma init_raises_nothing :
  (~ (0 < 2 < 1) \/ -1 <= 0)
  /\ __init__ 2 (-1) = Ok (fresh 2 (-1))
  /\ (forall e, __init__ 2 (-1) <> Raise e)
  /\ detect (fresh 2 (-1)) 7 =
       (Ok false,
        {| alpha := 2; mean_ewma := Some 7; variance_ewma := Some 0;
           threshold := -1 |}).
Proof.
  split; [right; lra|]. split; [reflexivity|]. split; [|reflexivity].
  intros e H. discriminate H.
Qed.

(** ** Invariants of the statistics *)

(** A call on a detector whose statistics are paired returns, and leaves
    both statistics set. *)
Lemma detect_paired (self : ZScoreEWMA_AnomalyDetector) (value : R) :
  statistics_paired self ->
  exists flag mean' variance',
    fst (detect self value) = Ok flag
    /\ mean_ewma (snd (detect self value)) = Some mean'
    /\ variance_ewma (snd (detect self value)) = Some variance'.
Proof.
  unfold statistics_paired. intros H.
  destruct (mean_ewma self) as [mean|] eqn:Hm;
    destruct (variance_ewma self) as [variance|] eqn:Hv; try contradiction.
  - rewrite (detect_later self value mean variance Hm Hv). cbn.
    eexists. eexists. eexists. repeat split.
  - rewrite (detect_first self value Hm). cbn.
    eexists. eexists. eexists. repeat split.
Qed.

Lemma detect_keeps_paired (self : ZScoreEWMA_AnomalyDetector) (value : R) :
  statistics_paired self -> statistics_paired (snd (detect self value)).
Proof.
  intros H. destruct (detect_paired self value H) as (f & m & s & _ & Hm & Hs).
  unfold statistics_paired. rewrite Hm, Hs. exact I.
Qed.

(** The variance update is a convex combination of a square and the old
    variance when the smoothing factor lies in [0,1]. *)
Lemma variance_update_nonneg (a deviation variance : R) :
  0 <= a <= 1 -> 0 <= variance ->
  0 <= a * deviation ^ 2 + (1 - a) * variance.
Proof.
  intros Ha Hv. pose proof (pow2_ge_0 deviation).
  apply Rplus_le_le_0_compat; apply Rmult_le_pos; lra.
Qed.

Lemma detect_keeps_variance_nonneg
    (self : ZScoreEWMA_AnomalyDetector) (value : R) :
  0 <= alpha self <= 1 ->
  variance_nonneg self -> variance_nonneg (snd (detect self value)).
Proof.
  unfold variance_nonneg. intros Ha H.
  destruct (mean_ewma self) as [mean|] eqn:Hm.
  - destruct (variance_ewma self) as [variance|] eqn:Hv.
    + rewrite (detect_later self value mean variance Hm Hv). cbn.
      apply variance_update_nonneg; assumption.
    + unfold detect. rewrite Hm. cbn. rewrite Hv. cbn. rewrite Hv. exact I.
  - rewrite (detect_first self value Hm). cbn. lra.
Qed.


Lemma fresh_paired (a t : R) : statistics_paired (fresh a t).
Proof. exact I. Qed.

Lemma fresh_variance_nonneg (a t : R) : variance_nonneg (fresh a t).
Proof. exact I. Qed.



(** ** The threshold and the statistics *)

(** One call: another threshold changes at most the flag. *)
Lemma detect_with_threshold
    (t : R) (self : ZScoreEWMA_AnomalyDetector) (value : R) :
  snd (detect (with_threshold t self) value)
    = with_threshold t (snd (detect self value))
  /\ returned (fst (detect (with_threshold t self) value))
     = returned (fst (detect self value)).
Proof.
  unfold detect, with_threshold, set_variance_ewma, set_mean_ewma. cbn.
  destruct (mean_ewma self) as [mean|]; cbn; [|split; reflexivity].
  destruct (variance_ewma self) as [variance|]; cbn; split; reflexivity.
Qed.

Lemma detect_each_with_threshold
    (t : R) (values : list R) (self : ZScoreEWMA_AnomalyDetector) :
  snd (detect_each (with_threshold t self) values)
    = with_threshold t (snd (detect_each self values)).
Proof.
  revert self. induction values as [|value rest IH]; intros self;
    [reflexivity|].
  cbn [detect_each].
  destruct (detect_with_threshold t self value) as [Hs Hr].
  destruct (detect self value) as [[flag|e] self1];
    destruct (detect (with_threshold t self) value) as [[flag'|e'] self2];
    cbn in Hs, Hr; try discriminate; subst self2; [|reflexivity].
  specialize (IH self1).
  destruct (detect_each self1 rest) as [[flags|e] self1'];
    destruct (detect_each (with_threshold t self1) rest)
      as [[flags'|e'] self2'];
    exact IH.
Qed.

Lemma detect_each_parameters
    (values : list R) (self : ZScoreEWMA_AnomalyDetector) :
  alpha (snd (detect_each self values)) = alpha self
  /\ threshold (snd (detect_each self values)) = threshold self.
Proof.
  revert self. induction values as [|value rest IH]; intros self;
    [split; reflexivity|].
  cbn [detect_each].
  destruct (detect_parameters self value) as [Ha Ht].
  destruct (detect self value) as [[flag|e] self1]; cbn in Ha, Ht;
    [|split; assumption].
  destruct (IH self1) as [Ha' Ht'].
  destruct (detect_each self1 rest) as [[flags|e] self2]; cbn in *;
    split; congruence.
Qed.

(** C10. After any sequence of [detect] calls, a detector and the same
    detector given another threshold hold the same mean estimate and the
    same variance estimate; the calls leave the smoothing factor and the
    threshold of each as they were. *)
Theorem statistics_ignore_threshold
    (t : R) (self : ZScoreEWMA_AnomalyDetector) (values : list R) :
  mean_ewma (snd (detect_each (with_threshold t self) values))
    = mean_ewma (snd (detect_each self values))
  /\ variance_ewma (snd (detect_each (with_threshold t self) values))
     = variance_ewma (snd (detect_each self values))
  /\ alpha (snd (detect_each (with_threshold t self) values)) = alpha self
  /\ threshold (snd (detect_each (with_threshold t self) values)) = t
  /\ alpha (snd (detect_each self values)) = alpha self
  /\ threshold (snd (detect_each self values)) = threshold self.
Proof.
  rewrite detect_each_with_threshold.
  destruct (detect_each_parameters values self) as [Ha Ht].
  cbn. repeat split; assumption.
Qed.

(** ** Thresholds and the flagged indices *)

(** One call: a flag raised under a threshold is raised under every
    smaller one. *)
Lemma detect_flag_monotone
    (tA tB : R) (self : ZScoreEWMA_AnomalyDetector) (value : R) :
  tA < tB ->
  fst (detect (with_threshold tB self) value) = Ok true ->
  fst (detect (with_threshold tA self) value) = Ok true.
Proof.
  intros Hlt.
  destruct (mean_ewma self) as [mean|] eqn:Hm.
  - destruct (variance_ewma self) as [variance|] eqn:Hv.
    + rewrite (detect_later (with_threshold tB self) value mean variance Hm Hv).
      rewrite (detect_later (with_threshold tA self) value mean variance Hm Hv).
      cbn. intros H. injection H as H. f_equal.
      exact (z_test_monotone _ _ tA tB Hlt H).
    + rewrite (detect_unpaired (with_threshold tB self) value mean Hm Hv).
      discriminate.
  - rewrite (detect_first (with_threshold tB self) value Hm). cbn.
    discriminate.
Qed.

Lemma loop_monotone
    (tA tB : R) (stream : list R) (self : ZScoreEWMA_AnomalyDetector)
    (data_points : list R) (anomaliesA anomaliesB : list nat) (i : nat) :
  tA < tB ->
  incl anomaliesB anomaliesA ->
  flagged i (visualization_loop stream (with_threshold tB self)
               data_points anomaliesB) ->
  flagged i (visualization_loop stream (with_threshold tA self)
               data_points anomaliesA).
Proof.
  intros Hlt. revert self data_points anomaliesA anomaliesB.
  induction stream as [|value rest IH];
    intros self data_points anomaliesA anomaliesB Hincl.
  - unfold flagged. cbn. apply Hincl.
  - cbn [visualization_loop].
    destruct (detect_with_threshold tA self value) as [HsA HrA].
    destruct (detect_with_threshold tB self value) as [HsB HrB].
    pose proof (detect_flag_monotone tA tB self value Hlt) as Hmono.
    destruct (detect (with_threshold tB self) value) as [[flagB|eB] selfB];
      [|unfold flagged; cbn; contradiction].
    destruct (detect (with_threshold tA self) value) as [[flagA|eA] selfA];
      cbn in HsA, HrA, HsB, HrB, Hmono.
    + subst selfA selfB.
      destruct flagB.
      * assert (HA : flagA = true)
          by (specialize (Hmono eq_refl); injection Hmono as ->; reflexivity).
        subst flagA.
        apply IH. apply incl_app_app; [exact Hincl|apply incl_refl].
      * destruct flagA; apply IH; [apply incl_appl|]; exact Hincl.
    + rewrite <- HrB in HrA. discriminate HrA.
Qed.

(** C5. For one input sequence and one smoothing factor, every index that
    the loop collects under a threshold is collected under every strictly
    smaller threshold. *)
Theorem threshold_monotone
    (a tA tB : R) (detectorA detectorB : ZScoreEWMA_AnomalyDetector)
    (stream : list R) (i : nat) :
  tA < tB ->
  __init__ a tA = Ok detectorA ->
  __init__ a tB = Ok detectorB ->
  flagged i (real_time_visualization stream detectorB) ->
  flagged i (real_time_visualization stream detectorA).
Proof.
  intros Hlt HA HB. apply init_inv in HA, HB. subst detectorA detectorB.
  unfold real_time_visualization.
  apply (loop_monotone tA tB stream (fresh a 0) [] [] [] i Hlt).
  apply incl_refl.
Qed.

(** A run that flags: with smoothing factor 1/4 and threshold 1, the value
    1 after the value 0 has deviation 3/4 from the refreshed mean 1/4,
    variance 9/64 and Z-score just under 2. *)
Lemma step_up_run :
  real_time_visualization [0; 1] (fresh (1/4) 1) =
    (Ok ([0; 1], [1%nat]),
     {| alpha := 1/4; mean_ewma := Some (1/4); variance_ewma := Some (9/64);
        threshold := 1 |}).
Proof.
  unfold real_time_visualization. cbn [visualization_loop app].
  rewrite detect_first by reflexivity. cbn [alpha threshold fresh].
  rewrite (detect_later_eq
             {| alpha := 1/4; mean_ewma := Some 0; variance_ewma := Some 0;
                threshold := 1 |} 1 0 0 (1/4) (9/64) true);
    cbn [alpha threshold mean_ewma variance_ewma];
    try reflexivity; try lra.
  apply z_test_true; [lra|].
  replace (1 - 1/4) with (3/4) by lra. rewrite Rabs_pos_eq by lra.
  replace (9/64) with (3/8 * (3/8)) by lra. rewrite sqrt_square by lra.
  unfold epsilon. lra.
Qed.

Lemma threshold_monotone_witness :
  flagged 1 (real_time_visualization [0; 1] (fresh (1/4) (1/2))).
Proof.
  apply (threshold_monotone (1/4) (1/2) 1
           (fresh (1/4) (1/2)) (fresh (1/4) 1) [0; 1] 1%nat);
    [lra | reflexivity | reflexivity |].
  rewrite step_up_run. unfold flagged. cbn. left. reflexivity.
Defined.


(** * The detector on binary64 *)

#[local] Set Warnings "-inexact-float".

(** ** Facts of binary64 arithmetic *)




(** ** The scenario [0, 0, 0, 0, 10] *)

(** C2. What the code does on the scenario: with smoothing factor 0.3 and
    threshold 3 the sequence [0, 0, 0, 0, 10] is answered [False] five
    times, the jump to 10 included; the fifth call stores mean 3 and
    variance 14.7, and its Z-score, about 1.83, stays below 3. *)
Theorem scenario_jump_not_flagged :
  exists self,
    B64.__init__ 0.3 3 = Ok self
    /\ B64.detect_each self [0; 0; 0; 0; 10]%float =
         (Ok [false; false; false; false; false],
          {| B64.alpha := 0.3; B64.mean_ewma := Some 3%float;
             B64.variance_ewma := Some 14.7%float; B64.threshold := 3 |}).
Proof.
  eexists. split; [reflexivity|]. vm_compute. reflexivity.
Qed.

(** ** Repeated values *)






(** ** When [detect] raises *)







(** ** Several detectors, one program *)

Lemma setattr_same (h : B64.heap) (self : nat)
    (assign : B64.ZScoreEWMA_AnomalyDetector
              -> B64.ZScoreEWMA_AnomalyDetector) :
  B64.setattr h self assign self = assign (h self).
Proof. unfold B64.setattr. rewrite Nat.eqb_refl. reflexivity. Qed.

Lemma setattr_other (h : B64.heap) (self o : nat)
    (assign : B64.ZScoreEWMA_AnomalyDetector
              -> B64.ZScoreEWMA_AnomalyDetector) :
  o <> self -> B64.setattr h self assign o = h o.
Proof.
  intros H. unfold B64.setattr. apply Nat.eqb_neq in H. rewrite H.
  reflexivity.
Qed.

(** A call on one object: its outcome and what it leaves of that object
    are those of [detect] on the object's record; every other object stays
    as it was. *)
Lemma detect_at_local (h : B64.heap) (self : nat) (value : float) :
  fst (B64.detect_at h self value) = fst (B64.detect (h self) value)
  /\ snd (B64.detect_at h self value) self
     = snd (B64.detect (h self) value)
  /\ forall o, o <> self -> snd (B64.detect_at h self value) o = h o.
Proof.
  unfold B64.detect_at, B64.detect, B64.getattr.
  destruct (B64.mean_ewma (h self)) as [mean|] eqn:Hm.
  - rewrite !setattr_same.
    cbn [B64.mean_ewma B64.set_mean_ewma B64.alpha B64.variance_ewma].
    cbv zeta.
    destruct (B64.pow2 _) as [squared|e].
    + destruct (B64.variance_ewma (h self)) as [variance|] eqn:Hs.
      * rewrite !setattr_same.
        cbn [B64.variance_ewma B64.set_variance_ewma B64.set_mean_ewma
             B64.threshold fst snd].
        split; [reflexivity|].
        split; [rewrite ?setattr_same; reflexivity|].
        intros o Ho. rewrite !setattr_other by exact Ho. reflexivity.
      * cbn [fst snd]. rewrite setattr_same.
        split; [reflexivity|].
        split; [rewrite ?setattr_same; reflexivity|].
        intros o Ho. rewrite !setattr_other by exact Ho. reflexivity.
    + cbn [fst snd]. rewrite setattr_same.
      split; [reflexivity|].
        split; [rewrite ?setattr_same; reflexivity|].
      intros o Ho. rewrite !setattr_other by exact Ho. reflexivity.
  - cbn [fst snd]. rewrite !setattr_same.
    split; [reflexivity|].
        split; [rewrite ?setattr_same; reflexivity|].
    intros o Ho. rewrite !setattr_other by exact Ho. reflexivity.
Qed.

(** What a program's calls do to one object is what that object's own
    calls do to it, whatever is called on other objects in between. *)
Lemma run_isolated (calls : list (nat * float)) (h : B64.heap) (o : nat) :
  B64.outcomes_of o (fst (B64.run h calls))
    = fst (B64.trace (h o) (B64.values_of o calls))
  /\ snd (B64.run h calls) o
     = snd (B64.trace (h o) (B64.values_of o calls)).
Proof.
  revert h. induction calls as [|[self value] rest IH]; intros h.
  - split; reflexivity.
  - cbn [B64.run].
    destruct (detect_at_local h self value) as (Hout & Hself & Hother).
    destruct (B64.detect_at h self value) as [outcome h1].
    cbn [fst snd] in Hout, Hself, Hother.
    destruct (IH h1) as [IHlog IHfin].
    destruct (B64.run h1 rest) as [log h2]. cbn [fst snd] in IHlog, IHfin.
    unfold B64.outcomes_of, B64.values_of in *.
    cbn [fst snd filter]. cbn [fst].
    destruct (Nat.eqb_spec self o) as [->|Hne].
    + cbn [map snd B64.trace]. rewrite Hself in IHlog, IHfin.
      destruct (B64.detect (h o) value) as [outcome' self1].
      cbn [fst snd] in Hout, IHlog, IHfin. subst outcome'.
      destruct (B64.trace self1
                  (map snd (filter (fun c => Nat.eqb (fst c) o) rest)))
        as [log' self2].
      cbn [fst snd] in *. split; [f_equal; exact IHlog|exact IHfin].
    + rewrite (Hother o (not_eq_sym Hne)) in IHlog, IHfin.
      split; assumption.
Qed.

(** C8. Two detectors of one program constructed with the same smoothing
    factor and threshold and fed the same sequence of values, their calls
    interleaved in any way and with calls on any other detectors in
    between, have the same outcomes call by call (the same flags, the same
    exceptions) and end with the same mean estimate and variance estimate.
    A call on one detector changes no other detector. *)
Theorem detect_deterministic
    (a t : float) (h : B64.heap) (o1 o2 : nat) (calls : list (nat * float)) :
  B64.__init__ a t = Ok (h o1) ->
  B64.__init__ a t = Ok (h o2) ->
  B64.values_of o1 calls = B64.values_of o2 calls ->
  B64.outcomes_of o1 (fst (B64.run h calls))
    = B64.outcomes_of o2 (fst (B64.run h calls))
  /\ B64.mean_ewma (snd (B64.run h calls) o1)
     = B64.mean_ewma (snd (B64.run h calls) o2)
  /\ B64.variance_ewma (snd (B64.run h calls) o1)
     = B64.variance_ewma (snd (B64.run h calls) o2)
  /\ forall self value o,
       o <> self -> snd (B64.detect_at h self value) o = h o.
Proof.
  intros H1 H2 Hcalls.
  destruct (run_isolated calls h o1) as [Hlog1 Hfin1].
  destruct (run_isolated calls h o2) as [Hlog2 Hfin2].
  assert (Hsame : h o1 = h o2) by congruence.
  rewrite Hlog1, Hlog2, Hfin1, Hfin2, Hcalls, Hsame.
  repeat split.
  intros self value o Ho.
  exact (proj2 (proj2 (detect_at_local h self value)) o Ho).
Qed.

Lemma detect_deterministic_witness :
  B64.outcomes_of 0
    (fst (B64.run
            (fun _ => {| B64.alpha := 0.5; B64.mean_ewma := None;
                         B64.variance_ewma := None; B64.threshold := 1 |})
            [(0%nat, 0%float); (1%nat, 0%float); (1%nat, 8%float);
             (2%nat, 3%float); (0%nat, 8%float)]))
  = B64.outcomes_of 1
      (fst (B64.run
              (fun _ => {| B64.alpha := 0.5; B64.mean_ewma := None;
                           B64.variance_ewma := None; B64.threshold := 1 |})
              [(0%nat, 0%float); (1%nat, 0%float); (1%nat, 8%float);
               (2%nat, 3%float); (0%nat, 8%float)])).
Proof.
  apply (detect_deterministic 0.5 1
           (fun _ => {| B64.alpha := 0.5; B64.mean_ewma := None;
                        B64.variance_ewma := None; B64.threshold := 1 |})
           0%nat 1%nat); reflexivity.
Defined.

(** * Further properties of the code *)

(** ** A ceiling on the Z-score *)

Lemma abs_le_of_squares (x y : R) : 0 <= y -> x * x <= y * y -> Rabs x <= y.
Proof.
  intros Hy H. apply Rabs_le.
  split; destruct (Rle_dec (- y) x), (Rle_dec x y); nra.
Qed.

(** The variance a call stores is at least [alpha] times the squared
    deviation, so the deviation is at most [sqrt variance' / sqrt alpha]:
    when [alpha * t^2 >= 1] the test against [t] cannot succeed. *)
Lemma z_test_ceiling (a t deviation variance : R) :
  0 < a <= 1 -> 0 <= t -> 1 <= a * t ^ 2 -> 0 <= variance ->
  z_test deviation (a * deviation ^ 2 + (1 - a) * variance) t = false.
Proof.
  intros Ha Ht Hat Hv.
  pose proof (variance_update_nonneg a deviation variance
                (conj (Rlt_le _ _ (proj1 Ha)) (proj2 Ha)) Hv) as Hv'.
  apply z_test_false; [exact Hv'|].
  set (variance' := a * deviation ^ 2 + (1 - a) * variance) in *.
  pose proof (sqrt_pos variance') as Hs0.
  pose proof (sqrt_sqrt variance' Hv') as Hss.
  pose proof epsilon_pos as He.
  assert (Hd : Rabs deviation <= t * sqrt variance').
  { apply abs_le_of_squares; [nra|].
    assert (Hd2 : 0 <= deviation * deviation) by nra.
    assert (H1 : deviation * deviation <= a * t ^ 2 * (deviation * deviation))
      by nra.
    assert (H2 : a * deviation ^ 2 <= variance') by (unfold variance'; nra).
    assert (H3 : 0 <= t ^ 2) by nra.
    replace (t * sqrt variance' * (t * sqrt variance'))
      with (t ^ 2 * (sqrt variance' * sqrt variance')) by ring.
    rewrite Hss. nra. }
  nra.
Qed.

Lemma detect_under_ceiling (self : ZScoreEWMA_AnomalyDetector) (value : R) :
  0 < alpha self <= 1 -> 0 <= threshold self ->
  1 <= alpha self * threshold self ^ 2 ->
  statistics_paired self -> variance_nonneg self ->
  fst (detect self value) = Ok false.
Proof.
  intros Ha Ht Hat Hp Hn. unfold statistics_paired, variance_nonneg in *.
  destruct (mean_ewma self) as [mean|] eqn:Hm;
    destruct (variance_ewma self) as [variance|] eqn:Hv; try contradiction.
  - rewrite (detect_later self value mean variance Hm Hv). cbn. f_equal.
    apply z_test_ceiling; assumption.
  - rewrite (detect_first self value Hm). reflexivity.
Qed.

Lemma detect_each_under_ceiling
    (values : list R) (self : ZScoreEWMA_AnomalyDetector) :
  0 < alpha self <= 1 -> 0 <= threshold self ->
  1 <= alpha self * threshold self ^ 2 ->
  statistics_paired self -> variance_nonneg self ->
  fst (detect_each self values) = Ok (repeat false (length values)).
Proof.
  revert self. induction values as [|value rest IH];
    intros self Ha Ht Hat Hp Hn; [reflexivity|].
  pose proof (detect_under_ceiling self value Ha Ht Hat Hp Hn) as Hf.
  pose proof (detect_keeps_paired self value Hp) as Hp'.
  assert (Ha' : 0 <= alpha self <= 1) by lra.
  pose proof (detect_keeps_variance_nonneg self value Ha' Hn) as Hn'.
  destruct (detect_parameters self value) as [Hal Hth].
  cbn [detect_each length repeat].
  destruct (detect self value) as [r self'] eqn:Hd. cbn in *. subst r.
  rewrite <- Hal, <- Hth in *.
  specialize (IH self' Ha Ht Hat Hp' Hn').
  destruct (detect_each self' rest) as [r self'']. cbn in *. subst r.
  reflexivity.
Qed.

(** ** What the loop collects *)

Lemma loop_as_flags (stream : list R) (self : ZScoreEWMA_AnomalyDetector)
    (data_points : list R) (anomalies : list nat) :
  visualization_loop stream self data_points anomalies =
    match detect_each self stream with
    | (Ok flags, self') =>
        (Ok (data_points ++ stream,
             anomalies ++ true_indices (length data_points) flags), self')
    | (Raise e, self') => (Raise e, self')
    end.
Proof.
  revert self data_points anomalies.
  induction stream as [|value rest IH]; intros self data_points anomalies.
  - cbn. rewrite !app_nil_r. reflexivity.
  - cbn [visualization_loop detect_each].
    assert (Hlen : (length (data_points ++ [value]) - 1)%nat
                   = length data_points)
      by (rewrite length_app; cbn; lia).
    assert (Hlen' : length (data_points ++ [value]) = S (length data_points))
      by (rewrite length_app; cbn; lia).
    destruct (detect self value) as [[[|]|e] self']; [| |reflexivity];
      rewrite IH; destruct (detect_each self' rest) as [[flags|e] self''];
      try reflexivity; cbn [true_indices];
      rewrite ?Hlen, Hlen', <- !app_assoc; reflexivity.
Qed.

Lemma true_indices_increasing (flags : list bool) (offset : nat) :
  increasing_below (offset + length flags) offset (true_indices offset flags).
Proof.
  revert offset. induction flags as [|[|] rest IH]; intros offset; cbn.
  - exact I.
  - split; [lia|]. split; [lia|].
    replace (offset + S (length rest))%nat with (S offset + length rest)%nat
      by lia.
    apply IH.
  - replace (offset + S (length rest))%nat with (S offset + length rest)%nat
      by lia.
    specialize (IH (S offset)).
    destruct (true_indices (S offset) rest) as [|i l]; [exact I|].
    cbn in *. destruct IH as (H1 & H2 & H3). repeat split; try lia. exact H3.
Qed.

Lemma true_indices_in (flags : list bool) (offset i : nat) :
  In i (true_indices offset flags)
  <-> exists k, i = (offset + k)%nat /\ nth k flags false = true.
Proof.
  revert offset. induction flags as [|flag rest IH]; intros offset.
  - cbn. split; [contradiction|]. intros (k & _ & H).
    destruct k; discriminate.
  - assert (Hrest : In i (true_indices (S offset) rest)
                    <-> exists k, i = (offset + S k)%nat
                                  /\ nth (S k) (flag :: rest) false = true).
    { rewrite IH. cbn [nth].
      split; intros (k & Hk & H); exists k; split; try assumption; lia. }
    assert (Hsplit : (exists k, i = (offset + k)%nat
                                /\ nth k (flag :: rest) false = true)
                     <-> (i = offset /\ flag = true)
                         \/ In i (true_indices (S offset) rest)).
    { rewrite Hrest. split.
      - intros ([|k] & Hk & H).
        + left. cbn in H. split; [lia|exact H].
        + right. exists k. split; assumption.
      - intros [[Hi Hf]|(k & Hk & H)].
        + exists 0%nat. cbn. split; [lia|exact Hf].
        + exists (S k). split; assumption. }
    rewrite Hsplit. destruct flag; cbn [true_indices In].
    + split; [intros [H|H]; [left; split; [symmetry; exact H|reflexivity]
                            |right; exact H]
             |intros [[H _]|H]; [left; symmetry; exact H|right; exact H]].
    + split; [intros H; right; exact H|intros [[_ H]|H]; [discriminate|exact H]].
Qed.

Lemma detect_each_length
    (values : list R) (self self' : ZScoreEWMA_AnomalyDetector)
    (flags : list bool) :
  detect_each self values = (Ok flags, self') ->
  length flags = length values.
Proof.
  revert self flags. induction values as [|value rest IH];
    intros self flags H; cbn [detect_each] in H.
  - injection H as <- _. reflexivity.
  - destruct (detect self value) as [[flag|e] self1]; [|discriminate H].
    destruct (detect_each self1 rest) as [[flags'|e] self2] eqn:E;
      [|discriminate H].
    injection H as <- <-. cbn. f_equal. exact (IH self1 flags' E).
Qed.

(** X2. For every detector and every finite stream: when every [detect]
    call returns, the loop of [real_time_visualization] returns,
    [data_points] ends as the stream itself and [anomalies] as the
    positions whose call returned [True], each once, in increasing order
    and below the length of the stream; when a [detect] call raises, the
    loop raises that exception, with the detector as that call left it. *)
Theorem loop_collects_flagged
    (stream : list R) (self : ZScoreEWMA_AnomalyDetector) :
  match detect_each self stream with
  | (Ok flags, self') =>
      real_time_visualization stream self =
        (Ok (stream, true_indices 0 flags), self')
      /\ length flags = length stream
      /\ increasing_below (length stream) 0 (true_indices 0 flags)
      /\ (forall i, In i (true_indices 0 flags) <-> nth i flags false = true)
  | (Raise e, self') =>
      real_time_visualization stream self = (Raise e, self')
  end.
Proof.
  unfold real_time_visualization. rewrite loop_as_flags.
  destruct (detect_each self stream) as [[flags|e] self'] eqn:He;
    [|reflexivity].
  pose proof (detect_each_length stream self self' flags He) as Hlen.
  split; [reflexivity|]. split; [exact Hlen|]. split.
  - rewrite <- Hlen. exact (true_indices_increasing flags 0).
  - intros i. rewrite true_indices_in. split.
    + intros (k & -> & H). exact H.
    + intros H. exists i. split; [reflexivity|exact H].
Qed.

Lemma step_up_flags :
  detect_each (fresh (1/4) 1) [0; 1] =
    (Ok [false; true],
     {| alpha := 1/4; mean_ewma := Some (1/4); variance_ewma := Some (9/64);
        threshold := 1 |}).
Proof.
  eapply detect_each_cons; [apply detect_first; reflexivity|].
  cbn [alpha threshold fresh].
  eapply detect_each_cons; [|reflexivity].
  later_call {| alpha := 1/4; mean_ewma := Some 0; variance_ewma := Some 0;
                threshold := 1 |} 1 0 0 (1/4) (9/64) true.
  apply z_test_true; [lra|].
  replace (1 - 1/4) with (3/4) by lra. rewrite Rabs_pos_eq by lra.
  replace (9/64) with (3/8 * (3/8)) by lra. rewrite sqrt_square by lra.
  unfold epsilon. lra.
Qed.

(** ** The window *)

Lemma tl_skipn (A : Type) (k : nat) (l : list A) :
  tl (skipn k l) = skipn (S k) l.
Proof.
  revert l. induction k as [|k IH]; intros [|x l]; try reflexivity.
  change (tl (skipn k l) = skipn (S k) l). apply IH.
Qed.

(** Appending to a window that holds the latest [maxlen] data points
    leaves it holding the latest [maxlen] data points. *)
Lemma deque_append_latest (maxlen : Z) (data_points : list R) (value : R) :
  (0 <= maxlen)%Z ->
  deque_append maxlen
    (skipn (length data_points - Z.to_nat maxlen) data_points) value
  = skipn (length (data_points ++ [value]) - Z.to_nat maxlen)
      (data_points ++ [value]).
Proof.
  intros Hm. unfold deque_append.
  set (n := Z.to_nat maxlen). set (len := length data_points).
  assert (Hlen : length (data_points ++ [value]) = S len)
    by (rewrite length_app; cbn; unfold len; lia).
  rewrite Hlen.
  assert (Happ : skipn (len - n) data_points ++ [value]
                 = skipn (len - n) (data_points ++ [value])).
  { rewrite skipn_app.
    replace (len - n - length data_points)%nat with 0%nat
      by (unfold len; lia).
    reflexivity. }
  rewrite Happ.
  assert (Hl : length (skipn (len - n) (data_points ++ [value]))
               = (S len - (len - n))%nat)
    by (rewrite length_skipn, Hlen; reflexivity).
  rewrite Hl.
  destruct (Z.ltb_spec maxlen (Z.of_nat (S len - (len - n)))) as [Hlt|Hge].
  - rewrite tl_skipn. f_equal. unfold n in *. lia.
  - f_equal. unfold n in *. lia.
Qed.

Lemma windowed_loop_as_loop (window_size : Z) (stream : list R)
    (self : ZScoreEWMA_AnomalyDetector)
    (data_points : list R) (anomalies : list nat) :
  (0 <= window_size)%Z ->
  windowed_loop window_size stream self
    (skipn (length data_points - Z.to_nat window_size) data_points)
    data_points anomalies
  = match visualization_loop stream self data_points anomalies with
    | (Ok (data_points', anomalies'), self') =>
        (Ok (skipn (length data_points' - Z.to_nat window_size) data_points',
             data_points', anomalies'), self')
    | (Raise e, self') => (Raise e, self')
    end.
Proof.
  intros Hw. revert self data_points anomalies.
  induction stream as [|value rest IH]; intros self data_points anomalies;
    [reflexivity|].
  cbn [windowed_loop visualization_loop].
  rewrite (deque_append_latest window_size data_points value Hw).
  destruct (detect self value) as [[[|]|e] self']; [| |reflexivity];
    apply IH.
Qed.

Lemma deque_in_range (maxlen : Z) :
  (0 <= maxlen <= ssize_t_max)%Z -> deque maxlen = Ok [].
Proof.
  intros H. unfold deque.
  destruct (Z.ltb_spec maxlen (- 2 ^ 63)) as [H1|_]; [lia|].
  destruct (Z.ltb_spec ssize_t_max maxlen) as [H2|_]; [lia|].
  destruct (Z.ltb_spec maxlen 0) as [H3|_]; [lia|]. reflexivity.
Qed.

Lemma sized_loop_as_loop
    (stream : list R) (self : ZScoreEWMA_AnomalyDetector) (window_size : Z) :
  (0 <= window_size <= ssize_t_max)%Z ->
  real_time_visualization_sized stream self window_size
  = match real_time_visualization stream self with
    | (Ok (data_points, anomalies), self') =>
        (Ok (skipn (length data_points - Z.to_nat window_size) data_points,
             data_points, anomalies), self')
    | (Raise e, self') => (Raise e, self')
    end.
Proof.
  intros Hw. unfold real_time_visualization_sized.
  rewrite (deque_in_range window_size Hw).
  exact (windowed_loop_as_loop window_size stream self [] [] (proj1 Hw)).
Qed.

(** X3. With a window size from 0 to 2^63 - 1 and a stream on which every
    [detect] call returns, the loop ends with the window holding the
    latest values of the stream, as many as the window size allows (all of
    them when the stream is shorter), in their order; [data_points] is the
    stream and [anomalies] the flagged positions, as without the window. *)
Theorem window_keeps_latest
    (stream : list R) (self self' : ZScoreEWMA_AnomalyDetector)
    (window_size : Z) (flags : list bool) :
  (0 <= window_size <= ssize_t_max)%Z ->
  detect_each self stream = (Ok flags, self') ->
  real_time_visualization_sized stream self window_size =
    (Ok (skipn (length stream - Z.to_nat window_size) stream,
         stream, true_indices 0 flags), self')
  /\ length (skipn (length stream - Z.to_nat window_size) stream)
     = Nat.min (Z.to_nat window_size) (length stream).
Proof.
  intros Hw He. split; [|rewrite length_skipn; lia].
  rewrite (sized_loop_as_loop stream self window_size Hw).
  unfold real_time_visualization. rewrite loop_as_flags, He. reflexivity.
Qed.

Lemma window_keeps_latest_witness :
  real_time_visualization_sized [0; 1] (fresh (1/4) 1) 1 =
    (Ok (skipn (length [0; 1] - Z.to_nat 1) [0; 1], [0; 1],
         true_indices 0 [false; true]),
     {| alpha := 1/4; mean_ewma := Some (1/4); variance_ewma := Some (9/64);
        threshold := 1 |})
  /\ length (skipn (length [0; 1] - Z.to_nat 1) [0; 1])
     = Nat.min (Z.to_nat 1) (length [0; 1]).
Proof.
  apply (window_keeps_latest [0; 1] (fresh (1/4) 1)).
  - unfold ssize_t_max. lia.
  - exact step_up_flags.
Defined.

(** X4. The window is made before any value is read.  A window size below
    -2^63 or above 2^63 - 1 raises [OverflowError], one from -2^63 to -1
    raises [ValueError], and both leave the detector as it was.  With a
    window size from 0 to 2^63 - 1 the loop raises only what a [detect]
    call raises. *)
Theorem window_size_errors
    (stream : list R) (self : ZScoreEWMA_AnomalyDetector) (window_size : Z) :
  ((window_size < - 2 ^ 63 \/ ssize_t_max < window_size)%Z ->
   real_time_visualization_sized stream self window_size
     = (Raise OverflowError, self))
  /\ ((- 2 ^ 63 <= window_size < 0)%Z ->
      real_time_visualization_sized stream self window_size
        = (Raise ValueError, self))
  /\ ((0 <= window_size <= ssize_t_max)%Z ->
      forall e,
        fst (real_time_visualization_sized stream self window_size)
          = Raise e ->
        fst (detect_each self stream) = Raise e).
Proof.
  split; [|split].
  - intros H. unfold real_time_visualization_sized, deque.
    destruct (Z.ltb_spec window_size (- 2 ^ 63)) as [H1|H1];
      [reflexivity|].
    destruct (Z.ltb_spec ssize_t_max window_size) as [H2|H2];
      [reflexivity|lia].
  - intros H. unfold real_time_visualization_sized, deque.
    destruct (Z.ltb_spec window_size (- 2 ^ 63)) as [H1|_]; [lia|].
    destruct (Z.ltb_spec ssize_t_max window_size) as [H2|_];
      [unfold ssize_t_max in H2; lia|].
    destruct (Z.ltb_spec window_size 0) as [_|H3]; [reflexivity|lia].
  - intros Hw e.
    rewrite (sized_loop_as_loop stream self window_size Hw).
    unfold real_time_visualization. rewrite loop_as_flags.
    destruct (detect_each self stream) as [[flags|e'] self'];
      cbn; [discriminate|]. intros H. injection H as <-. reflexivity.
Qed.

(** ** The data stream *)

Lemma true_indices_all_false (n offset : nat) :
  true_indices offset (repeat false n) = [].
Proof.
  revert offset. induction n as [|n IH]; intros offset; [reflexivity|].
  cbn. apply IH.
Qed.

Section GeneratorProperties.

Context {G : Random}.

Lemma normal_nonneg (loc scale : R) (g : rng) :
  0 <= scale ->
  normal loc scale g =
    (Ok (loc + scale * fst (standard_normal g)), snd (standard_normal g)).
Proof.
  intros H. unfold normal. destruct (Rlt_dec scale 0); [lra|].
  destruct (standard_normal g). reflexivity.
Qed.

Lemma normal_negative (loc scale : R) (g : rng) :
  scale < 0 -> normal loc scale g = (Raise ValueError, g).
Proof.
  intros H. unfold normal. destruct (Rlt_dec scale 0); [reflexivity|lra].
Qed.

(** Every turn yields its noisy value with 0, 10 or -10 added. *)
Lemma generate_value_shape (i : nat) (anomaly_prob noise_level : R) (g : rng) :
  0 <= noise_level ->
  exists value,
    fst (generate_value i anomaly_prob noise_level g) = Ok value
    /\ exists k,
         value = noisy_value_at i noise_level g + k
         /\ (k = 0 \/ k = 10 \/ k = -10).
Proof.
  intros Hn. unfold generate_value, rand, choice, noisy_value_at.
  rewrite (normal_nonneg 0 noise_level g Hn).
  destruct (standard_normal g) as [z g1]. cbn [fst snd].
  destruct (random_sample g1) as [u g2].
  destruct (Rlt_dec u anomaly_prob).
  - destruct (random_index (length [10; -10]) g2) as [j g3].
    eexists. split; [reflexivity|].
    exists (nth j [10; -10] 0). split; [reflexivity|].
    destruct j as [|[|[|j]]]; cbn; auto.
  - eexists. split; [reflexivity|].
    exists 0. split; [ring|]. auto.
Qed.

(** With a well-behaved generator and an anomaly probability that is not
    positive, a turn yields its noisy value and draws no index. *)
Lemma generate_value_plain (i : nat) (anomaly_prob noise_level : R) (g : rng) :
  well_behaved G -> anomaly_prob <= 0 -> 0 <= noise_level ->
  generate_value i anomaly_prob noise_level g
  = (Ok (noisy_value_at i noise_level g),
     snd (random_sample (snd (standard_normal g)))).
Proof.
  intros [Hu _] Hp Hn. unfold generate_value, rand, noisy_value_at.
  rewrite (normal_nonneg 0 noise_level g Hn).
  destruct (standard_normal g) as [z g1]. cbn [fst snd].
  specialize (Hu g1). destruct (random_sample g1) as [u g2]. cbn in Hu.
  destruct (Rlt_dec u anomaly_prob); [lra|]. reflexivity.
Qed.

(** With a well-behaved generator and an anomaly probability of 1 or
    more, a turn yields its noisy value with 10 or -10 added. *)
Lemma generate_value_anomalous
    (i : nat) (anomaly_prob noise_level : R) (g : rng) :
  well_behaved G -> 1 <= anomaly_prob -> 0 <= noise_level ->
  exists value,
    fst (generate_value i anomaly_prob noise_level g) = Ok value
    /\ (value = noisy_value_at i noise_level g + 10
        \/ value = noisy_value_at i noise_level g + -10).
Proof.
  intros [Hu Hi] Hp Hn. unfold generate_value, rand, choice, noisy_value_at.
  rewrite (normal_nonneg 0 noise_level g Hn).
  destruct (standard_normal g) as [z g1]. cbn [fst snd].
  specialize (Hu g1). destruct (random_sample g1) as [u g2]. cbn in Hu.
  destruct (Rlt_dec u anomaly_prob); [|lra].
  specialize (Hi (length [10; -10]) g2 ltac:(cbn; lia)).
  destruct (random_index (length [10; -10]) g2) as [j g3]. cbn in Hi.
  eexists. split; [reflexivity|].
  destruct j as [|[|j]]; cbn; auto. lia.
Qed.

(** What every turn yields from the state it starts in, the stream yields
    at every index from the state the turns before have left. *)
Lemma generate_from_turns (anomaly_prob noise_level : R)
    (Q : nat -> rng -> R -> Prop) :
  (forall i g, exists value,
      fst (generate_value i anomaly_prob noise_level g) = Ok value
      /\ Q i g value) ->
  forall count first g,
  exists values,
    generate_from first count anomaly_prob noise_level g
      = ((values, Ok tt),
         rng_after_turns first count anomaly_prob noise_level g)
    /\ length values = count
    /\ forall j, (j < count)%nat ->
         Q (first + j)%nat
           (rng_after_turns first j anomaly_prob noise_level g)
           (nth j values 0).
Proof.
  intros Hturn. induction count as [|count IH]; intros first g.
  - exists []. repeat split. intros j Hj. lia.
  - destruct (Hturn first g) as (value & Hv & HQ).
    cbn [generate_from rng_after_turns].
    destruct (generate_value first anomaly_prob noise_level g)
      as [r g1] eqn:Egen. cbn [fst snd] in *. subst r.
    destruct (IH (S first) g1) as (rest & Hrest & Hlen & Hall).
    exists (value :: rest). rewrite Hrest.
    repeat split; [cbn; f_equal; exact Hlen|].
    intros [|j] Hj; cbn [nth rng_after_turns].
    + rewrite Nat.add_0_r. exact HQ.
    + rewrite Egen. cbn [snd].
      replace (first + S j)%nat with (S first + j)%nat by lia.
      apply Hall. lia.
Qed.

(** X9. With a noise level that is not negative the generator runs to its
    end for every random generator: it yields as many values as [length]
    says (none for a negative [length]), and the value at index [i] is the
    noisy value of turn [i], the sinusoid [sin (2 pi i / 100)] plus
    [noise_level] times the normal draw of that turn, with 0, 10 or -10
    added. *)
Theorem generator_yields_all
    (length : Z) (anomaly_prob noise_level : R) (g : rng) :
  0 <= noise_level ->
  exists values,
    generate_data_stream length anomaly_prob noise_level g
      = ((values, Ok tt),
         rng_after_turns 0 (Z.to_nat length) anomaly_prob noise_level g)
    /\ List.length values = Z.to_nat length
    /\ forall i, (i < Z.to_nat length)%nat ->
         exists k,
           nth i values 0
           = noisy_value_at i noise_level
               (rng_after_turns 0 i anomaly_prob noise_level g) + k
           /\ (k = 0 \/ k = 10 \/ k = -10).
Proof.
  intros Hn. unfold generate_data_stream.
  exact (generate_from_turns anomaly_prob noise_level
           (fun i g value =>
              exists k, value = noisy_value_at i noise_level g + k
                        /\ (k = 0 \/ k = 10 \/ k = -10))
           (fun i g => generate_value_shape i anomaly_prob noise_level g Hn)
           (Z.to_nat length) 0%nat g).
Qed.

(** X10. With a well-behaved random generator and an anomaly probability
    that is not positive no anomaly is injected: the value at index [i] is
    the noisy value of turn [i], nothing added. *)
Theorem generator_without_anomalies
    (length : Z) (anomaly_prob noise_level : R) (g : rng) :
  well_behaved G -> anomaly_prob <= 0 -> 0 <= noise_level ->
  exists values,
    generate_data_stream length anomaly_prob noise_level g
      = ((values, Ok tt),
         rng_after_turns 0 (Z.to_nat length) anomaly_prob noise_level g)
    /\ List.length values = Z.to_nat length
    /\ forall i, (i < Z.to_nat length)%nat ->
         nth i values 0
         = noisy_value_at i noise_level
             (rng_after_turns 0 i anomaly_prob noise_level g).
Proof.
  intros Hw Hp Hn. unfold generate_data_stream.
  apply (generate_from_turns anomaly_prob noise_level
           (fun i g value => value = noisy_value_at i noise_level g)).
  intros i g0. eexists.
  rewrite (generate_value_plain i anomaly_prob noise_level g0 Hw Hp Hn).
  split; reflexivity.
Qed.

(** X11. With a well-behaved random generator and an anomaly probability
    of 1 or more every value is an anomaly: the value at index [i] is the
    noisy value of turn [i] plus 10, or plus -10. *)
Theorem generator_all_anomalous
    (length : Z) (anomaly_prob noise_level : R) (g : rng) :
  well_behaved G -> 1 <= anomaly_prob -> 0 <= noise_level ->
  exists values,
    generate_data_stream length anomaly_prob noise_level g
      = ((values, Ok tt),
         rng_after_turns 0 (Z.to_nat length) anomaly_prob noise_level g)
    /\ List.length values = Z.to_nat length
    /\ forall i, (i < Z.to_nat length)%nat ->
         nth i values 0
         = noisy_value_at i noise_level
             (rng_after_turns 0 i anomaly_prob noise_level g) + 10
         \/ nth i values 0
            = noisy_value_at i noise_level
                (rng_after_turns 0 i anomaly_prob noise_level g) + -10.
Proof.
  intros Hw Hp Hn. unfold generate_data_stream.
  exact (generate_from_turns anomaly_prob noise_level
           (fun i g value =>
              value = noisy_value_at i noise_level g + 10
              \/ value = noisy_value_at i noise_level g + -10)
           (fun i g =>
              generate_value_anomalous i anomaly_prob noise_level g Hw Hp Hn)
           (Z.to_nat length) 0%nat g).
Qed.

(** X12. With a negative noise level the generator raises a [ValueError]
    on its first turn, before it yields a value or draws a number; with no
    turn to make ([length] not positive) it ends normally, empty. *)
Theorem generator_rejects_negative_noise
    (length : Z) (anomaly_prob noise_level : R) (g : rng) :
  noise_level < 0 ->
  generate_data_stream length anomaly_prob noise_level g
    = (([], if (0 <? length)%Z then Raise ValueError else Ok tt), g).
Proof.
  intros Hn. unfold generate_data_stream.
  destruct (Z.ltb_spec 0 length) as [Hpos|Hnon].
  - destruct (Z.to_nat length) as [|count] eqn:E; [lia|].
    cbn [generate_from]. unfold generate_value.
    rewrite (normal_negative 0 noise_level g Hn). reflexivity.
  - replace (Z.to_nat length) with 0%nat by lia. reflexivity.
Qed.

Lemma generate_from_exact (anomaly_prob noise_level : R) (f : nat -> R) :
  (forall i g, exists g',
      generate_value i anomaly_prob noise_level g = (Ok (f i), g')) ->
  forall count i g,
  exists g',
    generate_from i count anomaly_prob noise_level g
      = ((map f (seq i count), Ok tt), g').
Proof.
  intros Hturn. induction count as [|count IH]; intros i g.
  - exists g. reflexivity.
  - destruct (Hturn i g) as (g1 & Hv).
    destruct (IH (S i) g1) as (g2 & Hrest).
    exists g2. cbn [generate_from seq map]. rewrite Hv, Hrest. reflexivity.
Qed.

(** X13. With a well-behaved random generator, an anomaly probability
    that is not positive and noise level 0, the stream is the sinusoid
    itself: the value at index [i] is [sin (2 pi i / 100)]. *)
Theorem noise_free_stream_is_sinusoid
    (length : Z) (anomaly_prob : R) (g : rng) :
  well_behaved G -> anomaly_prob <= 0 ->
  exists g',
    generate_data_stream length anomaly_prob 0 g
      = ((map (fun i => sin (INR i * 2 * PI / 100))
            (seq 0 (Z.to_nat length)), Ok tt), g').
Proof.
  intros Hw Hp. unfold generate_data_stream.
  apply generate_from_exact. intros i g0.
  rewrite (generate_value_plain i anomaly_prob 0 g0 Hw Hp (Rle_refl 0)).
  eexists. do 2 f_equal. unfold noisy_value_at. ring.
Qed.

(** ** The main program *)

(** X14. The main program returns for every random generator.  The
    generator yields its 1000 values; [data_points] ends as that stream,
    the window as its latest 30 values, and [anomalies] empty: with
    smoothing factor 0.3 and threshold 3 every [detect] call on the stream
    returns [False]. *)
Theorem main_collects_no_anomaly (g : rng) :
  exists stream g' self',
    generate_data_stream 1000 0.05 0.1 g = ((stream, Ok tt), g')
    /\ length stream = Z.to_nat 1000
    /\ detect_each (fresh 0.3 3) stream
       = (Ok (repeat false (length stream)), self')
    /\ main g =
         (Ok (skipn (length stream - Z.to_nat 30) stream, stream, []), self')
    /\ length (skipn (length stream - Z.to_nat 30) stream) = Z.to_nat 30.
Proof.
  unfold main. change (__init__ 0.3 3) with (Ok (fresh 0.3 3)). cbv iota.
  unfold generate_data_stream.
  destruct (generate_from_turns 0.05 0.1 (fun _ _ _ => True)
              (fun i g0 =>
                 match generate_value_shape i 0.05 0.1 g0 ltac:(lra) with
                 | ex_intro _ value (conj Hv _) =>
                     ex_intro _ value (conj Hv I)
                 end)
              (Z.to_nat 1000) 0%nat g)
    as (stream & Hgen & Hlen & _).
  rewrite Hgen.
  pose proof (detect_each_under_ceiling stream (fresh 0.3 3)) as Hf.
  cbn [alpha threshold fresh] in Hf.
  specialize (Hf ltac:(lra) ltac:(lra) ltac:(lra)
                 (fresh_paired 0.3 3) (fresh_variance_nonneg 0.3 3)).
  destruct (detect_each (fresh 0.3 3) stream) as [r self'] eqn:He.
  cbn [fst] in Hf. subst r.
  exists stream, (rng_after_turns 0 (Z.to_nat 1000) 0.05 0.1 g), self'.
  split; [reflexivity|]. split; [exact Hlen|]. split; [exact He|].
  split; [|rewrite length_skipn, Hlen; lia].
  rewrite (sized_loop_as_loop stream (fresh 0.3 3) 30)
    by (unfold ssize_t_max; lia).
  unfold real_time_visualization. rewrite loop_as_flags, He.
  rewrite true_indices_all_false. reflexivity.
Qed.

End GeneratorProperties.

Lemma constant_random_well_behaved (z u : R) (i : nat) :
  0 <= u < 1 -> well_behaved (constant_random z u i).
Proof.
  intros Hu. split.
  - intros g. exact Hu.
  - intros n g Hn. cbn. apply Nat.mod_upper_bound. lia.
Qed.

Lemma generator_yields_all_witness :
  exists values,
    @generate_data_stream (constant_random 0 (1/2) 0) 3 0.05 0.1 tt
      = ((values, Ok tt),
         @rng_after_turns (constant_random 0 (1/2) 0) 0 (Z.to_nat 3)
           0.05 0.1 tt)
    /\ List.length values = Z.to_nat 3
    /\ forall i, (i < Z.to_nat 3)%nat ->
         exists k,
           nth i values 0
           = @noisy_value_at (constant_random 0 (1/2) 0) i 0.1
               (@rng_after_turns (constant_random 0 (1/2) 0) 0 i
                  0.05 0.1 tt) + k
           /\ (k = 0 \/ k = 10 \/ k = -10).
Proof.
  apply (@generator_yields_all (constant_random 0 (1/2) 0) 3 0.05 0.1 tt).
  lra.
Defined.

Lemma generator_without_anomalies_witness :
  exists values,
    @generate_data_stream (constant_random 0 (1/2) 0) 3 0 0.1 tt
      = ((values, Ok tt),
         @rng_after_turns (constant_random 0 (1/2) 0) 0 (Z.to_nat 3)
           0 0.1 tt)
    /\ List.length values = Z.to_nat 3
    /\ forall i, (i < Z.to_nat 3)%nat ->
         nth i values 0
         = @noisy_value_at (constant_random 0 (1/2) 0) i 0.1
             (@rng_after_turns (constant_random 0 (1/2) 0) 0 i 0 0.1 tt).
Proof.
  apply (@generator_without_anomalies (constant_random 0 (1/2) 0) 3 0 0.1 tt);
    [apply constant_random_well_behaved; lra | lra | lra].
Defined.

Lemma generator_all_anomalous_witness :
  exists values,
    @generate_data_stream (constant_random 0 (1/2) 0) 3 1 0.1 tt
      = ((values, Ok tt),
         @rng_after_turns (constant_random 0 (1/2) 0) 0 (Z.to_nat 3)
           1 0.1 tt)
    /\ List.length values = Z.to_nat 3
    /\ forall i, (i < Z.to_nat 3)%nat ->
         nth i values 0
         = @noisy_value_at (constant_random 0 (1/2) 0) i 0.1
             (@rng_after_turns (constant_random 0 (1/2) 0) 0 i 1 0.1 tt)
           + 10
         \/ nth i values 0
            = @noisy_value_at (constant_random 0 (1/2) 0) i 0.1
                (@rng_after_turns (constant_random 0 (1/2) 0) 0 i 1 0.1 tt)
              + -10.
Proof.
  apply (@generator_all_anomalous (constant_random 0 (1/2) 0) 3 1 0.1 tt);
    [apply constant_random_well_behaved; lra | lra | lra].
Defined.

Lemma generator_rejects_negative_noise_witness :
  @generate_data_stream (constant_random 0 (1/2) 0) 3 0.05 (-1) tt
    = (([], if (0 <? 3)%Z then Raise ValueError else Ok tt), tt).
Proof.
  apply (@generator_rejects_negative_noise
           (constant_random 0 (1/2) 0) 3 0.05 (-1) tt).
  lra.
Defined.

Lemma noise_free_stream_is_sinusoid_witness :
  exists g',
    @generate_data_stream (constant_random 0 (1/2) 0) 3 0 0 tt
      = ((map (fun i => sin (INR i * 2 * PI / 100)) (seq 0 (Z.to_nat 3)),
          Ok tt), g').
Proof.
  apply (@noise_free_stream_is_sinusoid (constant_random 0 (1/2) 0) 3 0 tt);
    [apply constant_random_well_behaved; lra | lra].
Defined.
